(** * app_pdr: the Streamlit Excel editor (src/app.py)

    A shallow embedding of [write_workbook], [load_excel], the two grid
    builders and [main], and the properties the specification states about
    them.

    pandas, openpyxl and Streamlit are not part of the repository.  What the
    program needs from them is kept abstract: the engine's refusal to write a
    frame, the way it writes onto a sheet that already exists, the parser of
    an upload, the user's choices in the widgets.  They are the [Variable]s of
    the sections below, so every theorem holds for any behaviour of the
    libraries. *)

From stdpp Require Import base list strings gmap.

Local Open Scope string_scope.
Local Open Scope list_scope.

#[local] Set Warnings "-clear-no-such-hyp".

(** ** Data model *)

(** A cell value: string, number, boolean or empty. *)
Inductive Cell : Type :=
| CStr (s : string)
| CNum (z : Z)
| CBool (b : bool)
| CEmpty.

(** [pd.DataFrame]: a header and the rows below it. *)
Record DataFrame : Type := {
  columns : list string;
  rows : list (list Cell)
}.

(** [pd.DataFrame()] *)
Definition empty_frame : DataFrame := {| columns := []; rows := [] |}.

(** [df.shape] *)
Definition shape (df : DataFrame) : nat * nat :=
  (length (rows df), length (columns df)).

(** A Python exception, with the text [str(exc)] gives. *)
Inductive exn : Type := Exception (msg : string).

Definition str (exc : exn) : string := let 'Exception msg := exc in msg.

(** [pd.ExcelFile]: the sheet names in file order, and [xl.parse], which
    either raises or materialises a sheet. *)
Record ExcelFile : Type := {
  sheet_names : list string;
  parse : string -> exn + DataFrame
}.

(** The workbook held by a [pd.ExcelWriter]: its sheets in order, each with
    the frame written to it.  [output.getvalue()] is represented by the
    workbook the bytes encode. *)
Definition Workbook : Type := list (string * DataFrame).

Definition book_names (book : Workbook) : list string := book.*1.

(** The sheet of that name, if the workbook has one. *)
Fixpoint sheet (book : Workbook) (name : string) : option DataFrame :=
  match book with
  | [] => None
  | (n, df) :: rest => if String.eqb n name then Some df else sheet rest name
  end.

(** ** A small exception monad *)

Definition raising (A : Type) : Type := (exn + A)%type.

#[export] Instance raising_ret : MRet raising := fun A a => inr a.

#[export] Instance raising_bind : MBind raising := fun A B k m =>
  match m with
  | inl e => inl e
  | inr a => k a
  end.

(** ** The workbook writer *)

Section Writer.

(** The exception, if any, the engine raises when asked to write this frame
    under this sheet name (a frame beyond the format's limits, a name the
    format forbids, a value it cannot encode). *)
Variable engine_check : string -> DataFrame -> option exn.

(** In mode "w" the openpyxl writer reuses a sheet that already has the
    name and writes the frame's cells onto it: [overlay new old] is the
    content of the sheet afterwards. *)
Variable overlay : DataFrame -> DataFrame -> DataFrame.

Fixpoint put_sheet (name : string) (df : DataFrame) (book : Workbook) : Workbook :=
  match book with
  | [] => [(name, df)]
  | (n, old) :: rest =>
      if String.eqb n name then (n, overlay df old) :: rest
      else (n, old) :: put_sheet name df rest
  end.

(** [df.to_excel(writer, index=False, sheet_name=sheet_name)] *)
Definition to_excel (df : DataFrame) (writer : Workbook) (sheet_name : string)
  : raising Workbook :=
  match engine_check sheet_name df with
  | Some exc => inl exc
  | None => inr (put_sheet sheet_name df writer)
  end.

(** The [try: xl.parse(name) except Exception: pd.DataFrame()] of the
    loop. *)
Definition df_other (xl : ExcelFile) (name : string) : DataFrame :=
  match parse xl name with
  | inr df => df
  | inl _ => empty_frame
  end.

(** The loop [for name in xl.sheet_names], over the names still to visit. *)
Fixpoint copy_sheets (xl : ExcelFile) (sheet_name : string)
    (names : list string) (writer : Workbook) : raising Workbook :=
  match names with
  | [] => inr writer
  | name :: names' =>
      if String.eqb name sheet_name then
        copy_sheets xl sheet_name names' writer
      else
        writer' ← to_excel (df_other xl name) writer name;
        copy_sheets xl sheet_name names' writer'
  end.

Definition write_workbook (edits : DataFrame) (sheet_name : string)
    (xl : ExcelFile) : raising Workbook :=
  writer ← to_excel edits [] sheet_name;
  copy_sheets xl sheet_name (sheet_names xl) writer.

(** *** The writer as the specification words it

    "Writes the edited table first, under the selected sheet name.  Then, for
    every sheet name in the original handle's sheet sequence except the
    selected one, re-parses that sheet and writes it under its original name
    (an empty sheet when re-parsing fails), preserving the original relative
    order." *)

(** A sheet as handed over to the pass-through: its table, or the failure. *)
Definition reparse (xl : ExcelFile) (name : string) : DataFrame :=
  match parse xl name with
  | inl _ => {| columns := []; rows := [] |}
  | inr table => table
  end.

Definition planned_writes (edits : DataFrame) (sheet_name : string)
    (xl : ExcelFile) : list (string * DataFrame) :=
  (sheet_name, edits)
    :: map (fun name => (name, reparse xl name))
         (filter (fun name => name <> sheet_name) (sheet_names xl)).

(** Carrying out a list of writes in order, stopping at the first the engine
    refuses. *)
Fixpoint write_all (sheets : list (string * DataFrame)) (writer : Workbook)
  : raising Workbook :=
  match sheets with
  | [] => inr writer
  | (name, df) :: sheets' =>
      writer' ← to_excel df writer name;
      write_all sheets' writer'
  end.

(** The engine accepts every one of these writes. *)
Definition accepted (sheets : list (string * DataFrame)) : Prop :=
  Forall (fun s => engine_check s.1 s.2 = None) sheets.

End Writer.

(** ** The Streamlit script *)

(** The calls a run of the script makes to Streamlit (and to the AgGrid
    component), in the order it makes them, with the arguments that
    matter below. *)
Inductive st_call : Type :=
| st_set_page_config (page_title layout : string)
| st_title (body : string)
| st_write (body : string)
| st_sidebar_title (body : string)
| st_sidebar_write (body : string)
| st_sidebar_file_uploader (label : string) (type : list string)
| st_info (body : string)
| st_error (body : string)
| st_sidebar_selectbox (label : string) (options : list string)
| st_columns (spec : nat)
| st_metric (col : nat) (label : string) (value : nat)
| st_subheader (body : string)
| st_caption (body : string)
| AgGrid_call (df : DataFrame) (editable : bool) (theme : string)
| st_data_editor (df : DataFrame) (num_rows key : string)
| st_sidebar_markdown (body : string)
| st_sidebar_download_button (label : string) (data : Workbook)
    (file_name mime : string).

(** How a piece of the script ends: it goes on with a value, it executes
    [return], or an exception leaves it. *)
Inductive flow (A : Type) : Type :=
| Next (a : A)
| Return
| Raise (exc : exn).

Arguments Next {A} a.
Arguments Return {A}.
Arguments Raise {A} exc.

(** A piece of the script: the Streamlit calls it made, and how it ended. *)
Definition App (A : Type) : Type := (list st_call * flow A)%type.

#[export] Instance App_ret : MRet App := fun A a => ([], Next a).

#[export] Instance App_bind : MBind App := fun A B k m =>
  match m with
  | (calls, Next a) => let '(calls', r) := k a in (calls ++ calls', r)
  | (calls, Return) => (calls, Return)
  | (calls, Raise exc) => (calls, Raise exc)
  end.

Definition call (c : st_call) : App unit := ([c], Next tt).

Definition return_ {A : Type} : App A := ([], Return).

Definition raise {A : Type} (exc : exn) : App A := ([], Raise exc).

(** A call into code that may raise: the exception propagates. *)
Definition lift {A : Type} (m : raising A) : App A :=
  match m with
  | inl exc => raise exc
  | inr a => mret a
  end.

(** The file the user uploaded: [uploaded_file.name] and its content. *)
Record UploadedFile : Type := {
  name : string;
  content : string
}.

Definition xlsx_mime : string :=
  "application/vnd.openxmlformats-officedocument.spreadsheetml.sheet".

(** The calls every run makes before it looks at the upload. *)
Definition header_calls : list st_call :=
  [ st_set_page_config "Excel Editor App" "wide";
    st_title "📊 Internal Excel Editor";
    st_write "
        Téléversez un fichier Excel (`.xlsx`), choisissez la feuille à modifier puis
        éditez les données directement dans le tableau ci‑dessous.
        ";
    st_sidebar_title "📁 Options";
    st_sidebar_write "1. Téléversez un fichier
2. Choisissez la feuille
3. Téléchargez le classeur";
    st_sidebar_file_uploader "Choisir un fichier Excel" ["xlsx"] ].

(** The calls of the part of [main] that follows the empty-workbook test:
    sheet selection, metrics, grid, download. *)
Definition editing_call (c : st_call) : bool :=
  match c with
  | st_sidebar_selectbox _ _ | st_columns _ | st_metric _ _ _
  | st_subheader _ | st_caption _ | AgGrid_call _ _ _ | st_data_editor _ _ _
  | st_sidebar_markdown _ | st_sidebar_download_button _ _ _ _ => true
  | _ => false
  end.

Section Script.

Variable engine_check : string -> DataFrame -> option exn.
Variable overlay : DataFrame -> DataFrame -> DataFrame.

(** [pd.ExcelFile(file)]: the handle, or the exception the parser raises. *)
Variable pd_ExcelFile : UploadedFile -> raising ExcelFile.

(** The [st_aggrid] package when it can be imported: the data the grid
    hands back for the frame it was given. *)
Variable st_aggrid : option (DataFrame -> DataFrame).

(** What the user did in the widgets during this run: the uploaded file, the
    sheet picked among the options, the frame the built-in editor returns. *)
Variable file_uploader : option UploadedFile.
Variable selectbox : list string -> option string.
Variable data_editor : DataFrame -> DataFrame.

Definition try_import_aggrid : bool * option (DataFrame -> DataFrame) :=
  match st_aggrid with
  | Some AgGrid => (true, Some AgGrid)
  | None => (false, None)
  end.

Definition load_excel (file : UploadedFile) : App ExcelFile :=
  match pd_ExcelFile file with
  | inr xl => mret xl
  | inl exc =>
      call (st_error ("Failed to read Excel file: " +:+ str exc));;
      raise exc
  end.

(** Called with [None] for the component (never done by [main]), the first
    attribute access raises. *)
Definition build_aggrid_table (df : DataFrame)
    (AgGrid : option (DataFrame -> DataFrame)) : App DataFrame :=
  match AgGrid with
  | Some grid =>
      call (AgGrid_call df true "light");;
      mret (grid df)
  | None =>
      raise (Exception "'NoneType' object has no attribute 'from_dataframe'")
  end.

Definition build_data_editor_table (df : DataFrame) : App DataFrame :=
  call (st_data_editor df "dynamic" "data_editor");;
  mret (data_editor df).

Definition main : App unit :=
  call (st_set_page_config "Excel Editor App" "wide");;
  call (st_title "📊 Internal Excel Editor");;
  call (st_write "
        Téléversez un fichier Excel (`.xlsx`), choisissez la feuille à modifier puis
        éditez les données directement dans le tableau ci‑dessous.
        ");;
  let '(aggrid_available, AgGrid) := try_import_aggrid in
  call (st_sidebar_title "📁 Options");;
  call (st_sidebar_write "1. Téléversez un fichier
2. Choisissez la feuille
3. Téléchargez le classeur");;
  call (st_sidebar_file_uploader "Choisir un fichier Excel" ["xlsx"]);;
  match file_uploader with
  | None =>
      call (st_info "Aucun fichier sélectionné. Veuillez sélectionner un fichier `.xlsx`.");;
      return_
  | Some uploaded_file =>
      xl ← load_excel uploaded_file;
      let sheets := sheet_names xl in
      match sheets with
      | [] =>
          call (st_error "Ce classeur ne contient aucune feuille.");;
          return_
      | _ :: _ =>
          call (st_sidebar_selectbox "Sélectionner la feuille à éditer" sheets);;
          (* [if not sheet_name: return]: [None] and the empty string *)
          match selectbox sheets with
          | None => return_
          | Some sheet_name =>
              if String.eqb sheet_name "" then return_ else
              match parse xl sheet_name with
              | inl exc =>
                  call (st_error ("Impossible de lire la feuille '" +:+ sheet_name
                                    +:+ "': " +:+ str exc));;
                  return_
              | inr df =>
                  call (st_columns 2);;
                  call (st_metric 1 "Lignes" (shape df).1);;
                  call (st_metric 2 "Colonnes" (shape df).2);;
                  call (st_subheader ("Édition de la feuille : " +:+ sheet_name));;
                  edited_df ←
                    (if aggrid_available then
                       call (st_caption "Vous pouvez trier, filtrer et éditer les cellules directement dans la grille.");;
                       build_aggrid_table df AgGrid
                     else
                       call (st_caption "Module AgGrid non disponible ; utilisation de l'éditeur Streamlit intégré.");;
                       build_data_editor_table df);
                  call (st_sidebar_markdown "---");;
                  data_bytes ← lift (write_workbook engine_check overlay edited_df sheet_name xl);
                  call (st_sidebar_download_button "💾 Télécharger le classeur modifié"
                          data_bytes ("modifié_" +:+ name uploaded_file) xlsx_mime)
              end
          end
      end
  end.

End Script.

(** ** A workbook to run the program on

    The scenario of the specification (sheets "Data" and "Notes", the cell a1
    of "Data" edited from 1 to 10), with a third sheet that cannot be read. *)

Definition Data : DataFrame :=
  {| columns := ["a"; "b"];
     rows := [[CNum 1; CNum 2]; [CNum 3; CNum 4]] |}.

Definition Data_edited : DataFrame :=
  {| columns := ["a"; "b"];
     rows := [[CNum 10; CNum 2]; [CNum 3; CNum 4]] |}.

Definition Notes : DataFrame :=
  {| columns := ["note"]; rows := [[CStr "checked"]] |}.

Definition example_xl : ExcelFile :=
  {| sheet_names := ["Data"; "Notes"];
     parse := fun name =>
       if String.eqb name "Data" then inr Data
       else if String.eqb name "Notes" then inr Notes
       else inl (Exception ("Worksheet named '" +:+ name +:+ "' not found")) |}.

Definition damaged_xl : ExcelFile :=
  {| sheet_names := ["Notes"; "Data"; "Chart"];
     parse := fun name =>
       if String.eqb name "Data" then inr Data
       else if String.eqb name "Notes" then inr Notes
       else inl (Exception "unreadable sheet") |}.

(** An engine that refuses the frames .xlsx has no room for. *)
Definition xlsx_limits (sheet_name : string) (df : DataFrame) : option exn :=
  if (Z.of_nat (length (rows df)) <? 1048576)%Z
     && (Z.of_nat (length (columns df)) <=? 16384)%Z
  then None
  else Some (Exception "This sheet is too large!").

(** Cells written onto a sheet replace the cells that were there. *)
Definition new_cells (new old : DataFrame) : DataFrame :=
  {| columns := columns new ++ drop (length (columns new)) (columns old);
     rows := rows new ++ drop (length (rows new)) (rows old) |}.

Definition example_upload : UploadedFile :=
  {| name := "ventes.xlsx"; content := "PK..." |}.

(** A text file uploaded under an .xlsx name. *)
Definition corrupt_upload : UploadedFile :=
  {| name := "notes.xlsx"; content := "not a workbook" |}.

Definition example_parser (file : UploadedFile) : raising ExcelFile :=
  if String.eqb (name file) "ventes.xlsx" then inr example_xl
  else if String.eqb (name file) "vide.xlsx" then
    inr {| sheet_names := []; parse := parse example_xl |}
  else inl (Exception "File is not a zip file").

(** The user adds two rows at the bottom of the table. *)
Definition two_more_rows (df : DataFrame) : DataFrame :=
  {| columns := columns df;
     rows := rows df ++ [[CNum 5; CNum 6]; [CEmpty; CEmpty]] |}.

(** * Properties of the writer *)

Section WriterFacts.

Variable engine_check : string -> DataFrame -> option exn.
Variable overlay : DataFrame -> DataFrame -> DataFrame.

Local Abbreviation to_excel := (to_excel engine_check overlay).
Local Abbreviation write_all := (write_all engine_check overlay).
Local Abbreviation copy_sheets := (copy_sheets engine_check overlay).
Local Abbreviation write_workbook := (write_workbook engine_check overlay).
Local Abbreviation accepted := (accepted engine_check).

Implicit Types (book writer : Workbook) (xl : ExcelFile) (df : DataFrame).
Implicit Types (names : list string) (sheets : list (string * DataFrame)).

(** The recovery of the loop is the one the specification describes. *)
Lemma df_other_reparse xl name : df_other xl name = reparse xl name.
Proof. unfold df_other, reparse, empty_frame. by destruct (parse xl name). Qed.

(** *** One sheet written *)


Lemma put_sheet_names name df book :
  list_to_set (book_names (put_sheet overlay name df book))
    =@{gset string} {[name]} ∪ list_to_set (book_names book).
Proof.
  unfold book_names.
  induction book as [|[n old] book IH]; simpl; [set_solver|].
  destruct (String.eqb_spec n name) as [->|_]; rewrite !fmap_cons; simpl.
  - set_solver.
  - rewrite IH. set_solver.
Qed.

Lemma sheet_put_sheet_ne name df book other :
  name ≠ other → sheet (put_sheet overlay name df book) other = sheet book other.
Proof.
  intros Hne.
  induction book as [|[n old] book IH]; simpl.
  - by destruct (String.eqb_spec name other).
  - destruct (String.eqb_spec n name) as [->|_]; simpl.
    + by destruct (String.eqb_spec name other).
    + by rewrite IH.
Qed.

(** *** The loop carries out the planned writes *)

Lemma copy_sheets_write_all xl sheet_name names writer :
  copy_sheets xl sheet_name names writer
  = write_all (map (fun name => (name, reparse xl name))
                 (filter (fun name => name <> sheet_name) names)) writer.
Proof.
  revert writer.
  induction names as [|name names IH]; intros writer; simpl; [done|].
  destruct (String.eqb_spec name sheet_name) as [->|Hne].
  - rewrite filter_cons_False; [apply IH | by intros []].
  - rewrite filter_cons_True by done. simpl.
    rewrite df_other_reparse.
    destruct (to_excel (reparse xl name) writer name) as [exc|writer']; simpl;
      [done | apply IH].
Qed.

Lemma write_workbook_planned edits sheet_name xl :
  write_workbook edits sheet_name xl
  = write_all (planned_writes edits sheet_name xl) [].
Proof.
  unfold write_workbook, planned_writes. simpl.
  destruct (to_excel edits [] sheet_name) as [exc|writer]; simpl; [done|].
  apply copy_sheets_write_all.
Qed.

(** *** A list of writes *)

Lemma write_all_accepted sheets writer :
  accepted sheets → ∃ book, write_all sheets writer = inr book.
Proof.
  revert writer.
  induction sheets as [|[name df] sheets IH]; intros writer Hok; simpl.
  - by eexists.
  - apply Forall_cons in Hok as [Hhead Hrest]. simpl in Hhead.
    unfold to_excel. rewrite Hhead. simpl. by apply IH.
Qed.

Lemma write_all_inr_accepted sheets writer book :
  write_all sheets writer = inr book → accepted sheets.
Proof.
  revert writer.
  induction sheets as [|[name df] sheets IH]; intros writer Hrun.
  - constructor.
  - simpl in Hrun. unfold to_excel in Hrun.
    destruct (engine_check name df) as [exc|] eqn:Hcheck; simpl in Hrun; [done|].
    constructor; [done | by eapply IH].
Qed.



(** The sheet names of the result, as a set. *)
Lemma write_all_names sheets writer book :
  write_all sheets writer = inr book →
  list_to_set (book_names book)
    =@{gset string} list_to_set (book_names writer) ∪ list_to_set sheets.*1.
Proof.
  revert writer.
  induction sheets as [|[name df] sheets IH]; intros writer Hrun; simpl in Hrun.
  - injection Hrun as <-. set_solver.
  - unfold to_excel in Hrun.
    destruct (engine_check name df); simpl in Hrun; [done|].
    rewrite (IH _ Hrun), put_sheet_names, fmap_cons. set_solver.
Qed.

(** A sheet none of the writes names is left as it was. *)
Lemma write_all_sheet_other sheets writer book other :
  write_all sheets writer = inr book →
  other ∉ sheets.*1 →
  sheet book other = sheet writer other.
Proof.
  revert writer.
  induction sheets as [|[name df] sheets IH]; intros writer Hrun Hother;
    simpl in Hrun.
  - by injection Hrun as <-.
  - unfold to_excel in Hrun.
    destruct (engine_check name df); simpl in Hrun; [done|].
    rewrite fmap_cons in Hother. apply not_elem_of_cons in Hother as [Hne Hrest].
    rewrite (IH _ Hrun Hrest). by apply sheet_put_sheet_ne.
Qed.

(** *** Looking a sheet up *)




(** *** The planned writes *)




(** The edited sheet is never written over by the pass-through. *)
Lemma write_workbook_selected edits sheet_name xl book :
  write_workbook edits sheet_name xl = inr book →
  sheet book sheet_name = Some edits.
Proof.
  rewrite write_workbook_planned. unfold planned_writes. simpl.
  unfold to_excel.
  destruct (engine_check sheet_name edits); simpl; [done|].
  intros Hrun. rewrite (write_all_sheet_other _ _ _ sheet_name Hrun).
  - simpl. by rewrite String.eqb_refl.
  - intros Hin. apply list_elem_of_fmap in Hin as ([name df] & -> & Hin).
    apply list_elem_of_fmap in Hin as (name' & [= -> ->] & Hin).
    apply list_elem_of_filter in Hin as [Hne _]. by apply Hne.
Qed.


(** *** What the specification states about the writer *)






End WriterFacts.

(** * Properties of the script *)

(** ** Sequencing *)

Lemma call_bind {B : Type} (c : st_call) (m : App B) :
  (call c;; m) = (c :: m.1, m.2).
Proof. by destruct m. Qed.

Lemma mret_bind {A B : Type} (a : A) (k : A → App B) : (mret a ≫= k) = k a.
Proof. unfold mret, App_ret, mbind, App_bind. by destruct (k a). Qed.

(** One step of the script: the calls in front are peeled off. *)
Ltac script_step := rewrite ?call_bind, ?mret_bind; simpl.

(** A call that is none of the calls of a list written out. *)
Ltac among_calls := rewrite ?elem_of_cons, ?elem_of_nil; naive_solver.

Section ScriptFacts.

Variable engine_check : string -> DataFrame -> option exn.
Variable overlay : DataFrame -> DataFrame -> DataFrame.
Variable pd_ExcelFile : UploadedFile -> raising ExcelFile.
Variable st_aggrid : option (DataFrame -> DataFrame).
Variable file_uploader : option UploadedFile.
Variable selectbox : list string -> option string.
Variable data_editor : DataFrame -> DataFrame.

Local Abbreviation load_excel := (load_excel pd_ExcelFile).
Local Abbreviation write_workbook := (write_workbook engine_check overlay).
Local Abbreviation build_data_editor_table :=
  (build_data_editor_table data_editor).
Local Abbreviation main :=
  (main engine_check overlay pd_ExcelFile st_aggrid file_uploader selectbox
     data_editor).

(** C5, as the code has it.  When the parser raises on the upload,
    [load_excel] shows the error with [st.error], returns no handle and
    raises the exception again; [main] has no handler for it, so after the
    calls of the page header and the error message the exception leaves
    [main], and nothing of the editing part is reached. *)
Theorem main_load_error_propagates uploaded_file exc :
  file_uploader = Some uploaded_file →
  pd_ExcelFile uploaded_file = inl exc →
  load_excel uploaded_file
  = ([st_error ("Failed to read Excel file: " +:+ str exc)], Raise exc)
  ∧ main
    = (header_calls ++ [st_error ("Failed to read Excel file: " +:+ str exc)],
       Raise exc).
Proof.
  intros Hfile Hload.
  unfold main, load_excel, try_import_aggrid.
  rewrite Hfile, Hload.
  split; [done|]. by destruct st_aggrid; script_step.
Qed.

(** C6 (empty-workbook guard).  When the loaded handle has no sheet, the run
    consists of the page header and the error message, and then returns:
    no selectbox, metric, grid or download call is made.  The run is the
    same whatever [xl.parse], the widgets and the engine would do, none of
    which is consulted. *)
Theorem main_empty_workbook uploaded_file xl :
  file_uploader = Some uploaded_file →
  pd_ExcelFile uploaded_file = inr xl →
  sheet_names xl = [] →
  main = (header_calls ++ [st_error "Ce classeur ne contient aucune feuille."],
          Return)
  ∧ Forall (λ c, editing_call c = false) main.1.
Proof.
  intros Hfile Hload Hsheets.
  assert (main = (header_calls
                    ++ [st_error "Ce classeur ne contient aucune feuille."],
                  Return)) as ->.
  { unfold main, load_excel, try_import_aggrid.
    rewrite Hfile, Hload.
    destruct st_aggrid; script_step; by rewrite Hsheets. }
  split; [done|]. simpl. by repeat constructor.
Qed.

(** C7 (row growth).  When the user adds the rows [new_rows] to the table
    shown by the built-in editor (the variant with a dynamic row count), and
    the engine accepts the frames, the workbook written from the table the
    editor returns has, under the selected name, a sheet with as many rows
    as the original plus the rows added. *)
Theorem fallback_row_growth df new_rows sheet_name xl calls edited_df :
  data_editor df = {| columns := columns df; rows := rows df ++ new_rows |} →
  build_data_editor_table df = (calls, Next edited_df) →
  accepted engine_check (planned_writes edited_df sheet_name xl) →
  ∃ book table,
    write_workbook edited_df sheet_name xl = inr book
    ∧ sheet book sheet_name = Some table
    ∧ length (rows table) = length (rows df) + length new_rows.
Proof.
  intros Hadd Hedit Hok.
  unfold build_data_editor_table in Hedit. simpl in Hedit.
  injection Hedit as _ <-.
  destruct (write_all_accepted engine_check overlay _ [] Hok) as [book Hrun].
  rewrite <- write_workbook_planned in Hrun.
  exists book, (data_editor df). split; [done|].
  split; [by eapply write_workbook_selected|].
  rewrite Hadd. simpl. apply length_app.
Qed.

(** C8 (download name).  Every download button a run of [main] shows is for
    an uploaded file, its file name is the marker "modifié_" followed by the
    name of that file, and its MIME type is the one of .xlsx workbooks.  A
    run that reaches the end of [main] ends with such a button. *)
Theorem main_download_name :
  (∀ label data file_name mime,
     st_sidebar_download_button label data file_name mime ∈ main.1 →
     ∃ uploaded_file,
       file_uploader = Some uploaded_file
       ∧ file_name = "modifié_" +:+ name uploaded_file
       ∧ mime = xlsx_mime)
  ∧ (main.2 = Next tt →
     ∃ uploaded_file data,
       file_uploader = Some uploaded_file
       ∧ last main.1
         = Some (st_sidebar_download_button "💾 Télécharger le classeur modifié"
                   data ("modifié_" +:+ name uploaded_file) xlsx_mime)).
Proof.
  unfold main, try_import_aggrid, load_excel,
    build_aggrid_table, build_data_editor_table.
  split; [intros label data file_name mime|].
  all: destruct st_aggrid, file_uploader as [f|];
    try destruct (pd_ExcelFile f) as [e|xl];
    script_step; try done; try among_calls.
  all: destruct (sheet_names xl) as [|first others];
    script_step; try done; try among_calls.
  all: destruct (selectbox _) as [sheet_name|];
    [destruct (String.eqb sheet_name "");
       [|destruct (parse xl sheet_name) as [e|df]]|];
    script_step; try done; try among_calls.
  all: destruct (write_workbook _ _ _) as [e|book];
    simpl; try done; try among_calls.
  all: intros _; by exists f, book.
Qed.

(** What a run shows in the grid is the table parsed, in that run, from the
    sheet selected in that run: [main] keeps no table from one run to the
    next.  What the widget then returns for it is the widget's own affair. *)
Lemma main_grid_shows_parsed df :
  (AgGrid_call df true "light" ∈ main.1
   ∨ st_data_editor df "dynamic" "data_editor" ∈ main.1) →
  ∃ uploaded_file xl sheet_name,
    file_uploader = Some uploaded_file
    ∧ pd_ExcelFile uploaded_file = inr xl
    ∧ selectbox (sheet_names xl) = Some sheet_name
    ∧ parse xl sheet_name = inr df.
Proof.
  unfold main, try_import_aggrid, load_excel,
    build_aggrid_table, build_data_editor_table.
  destruct st_aggrid, file_uploader as [f|];
    try destruct (pd_ExcelFile f) as [e|xl] eqn:Hload;
    script_step; try among_calls.
  all: destruct (sheet_names xl) as [|first others] eqn:Hsheets;
    script_step; try among_calls.
  all: destruct (selectbox _) as [sheet_name|] eqn:Hpick;
    [destruct (String.eqb sheet_name "");
       [|destruct (parse xl sheet_name) as [e|df'] eqn:Hparse]|];
    script_step; try among_calls.
  all: destruct (write_workbook _ _ _) as [e|book]; simpl.
  all: rewrite ?elem_of_cons, ?elem_of_nil;
    intros Hshown; exists f, xl, sheet_name; rewrite Hsheets;
    repeat split; try done; naive_solver.
Qed.

End ScriptFacts.

(** * The program on the example workbook *)

(** The scenario of the specification: "Data" edited, "Notes" passed
    through. *)
Example write_workbook_scenario :
  write_workbook xlsx_limits new_cells Data_edited "Data" example_xl
  = inr [("Data", Data_edited); ("Notes", Notes)].
Proof. reflexivity. Qed.

(** The selected sheet is in the middle, and the last sheet cannot be read. *)
Example write_workbook_damaged :
  write_workbook xlsx_limits new_cells Data "Data" damaged_xl
  = inr [("Data", Data); ("Notes", Notes); ("Chart", empty_frame)].
Proof. reflexivity. Qed.






(** C5 as the specification states it does not hold: on a file that is no workbook the
    exception of the parser leaves [main]. *)
Lemma main_corrupt_upload_raises :
  main xlsx_limits new_cells example_parser None (Some corrupt_upload) head
    two_more_rows
  = (header_calls
       ++ [st_error "Failed to read Excel file: File is not a zip file"],
     Raise (Exception "File is not a zip file")).
Proof. reflexivity. Qed.

(** C5 as the code has it, on the same upload. *)
Lemma load_error_example :
  load_excel example_parser corrupt_upload
  = ([st_error ("Failed to read Excel file: "
                  +:+ str (Exception "File is not a zip file"))],
     Raise (Exception "File is not a zip file"))
  ∧ main xlsx_limits new_cells example_parser None (Some corrupt_upload) head
      two_more_rows
    = (header_calls
         ++ [st_error ("Failed to read Excel file: "
                         +:+ str (Exception "File is not a zip file"))],
       Raise (Exception "File is not a zip file")).
Proof.
  apply (main_load_error_propagates xlsx_limits new_cells example_parser None
           (Some corrupt_upload) head two_more_rows corrupt_upload).
  - reflexivity.
  - reflexivity.
Defined.

(** C6 on a workbook without sheets. *)
Lemma empty_workbook_example :
  main xlsx_limits new_cells example_parser None
    (Some {| name := "vide.xlsx"; content := "" |}) head two_more_rows
  = (header_calls ++ [st_error "Ce classeur ne contient aucune feuille."],
     Return)
  ∧ Forall (λ c, editing_call c = false)
      (main xlsx_limits new_cells example_parser None
         (Some {| name := "vide.xlsx"; content := "" |}) head two_more_rows).1.
Proof.
  apply (main_empty_workbook xlsx_limits new_cells example_parser None
           (Some {| name := "vide.xlsx"; content := "" |}) head two_more_rows
           {| name := "vide.xlsx"; content := "" |}
           {| sheet_names := []; parse := parse example_xl |}).
  - reflexivity.
  - reflexivity.
  - reflexivity.
Defined.

(** C7: two rows added to the two rows of "Data". *)
Lemma row_growth_example :
  ∃ book table,
    write_workbook xlsx_limits new_cells (two_more_rows Data) "Data" example_xl
    = inr book
    ∧ sheet book "Data" = Some table
    ∧ length (rows table) = 2 + 2.
Proof.
  apply (fallback_row_growth xlsx_limits new_cells two_more_rows Data
           [[CNum 5; CNum 6]; [CEmpty; CEmpty]] "Data" example_xl
           [st_data_editor Data "dynamic" "data_editor"] (two_more_rows Data)).
  - reflexivity.
  - reflexivity.
  - repeat constructor.
Defined.

(** C8 on the example upload: the run ends with the download of
    "modifié_ventes.xlsx". *)
Lemma download_name_example :
  ∃ uploaded_file data,
    Some example_upload = Some uploaded_file
    ∧ last (main xlsx_limits new_cells example_parser None (Some example_upload)
              head two_more_rows).1
      = Some (st_sidebar_download_button "💾 Télécharger le classeur modifié"
                data ("modifié_" +:+ name uploaded_file) xlsx_mime).
Proof.
  apply (main_download_name xlsx_limits new_cells example_parser None
           (Some example_upload) head two_more_rows).
  reflexivity.
Defined.

(** * More about the writer *)

Section WriterMore.

Variable engine_check : string -> DataFrame -> option exn.
Variable overlay : DataFrame -> DataFrame -> DataFrame.

Local Abbreviation to_excel := (to_excel engine_check overlay).
Local Abbreviation write_all := (write_all engine_check overlay).
Local Abbreviation write_workbook := (write_workbook engine_check overlay).
Local Abbreviation accepted := (accepted engine_check).

Implicit Types (book writer : Workbook) (xl : ExcelFile) (df : DataFrame).
Implicit Types (names : list string) (sheets : list (string * DataFrame)).

(** The sheets the loop passes through. *)
Local Abbreviation pass_through xl sheet_name :=
  (map (fun name => (name, reparse xl name))
     (filter (fun name => name <> sheet_name) (sheet_names xl))).

Lemma pass_through_names xl sheet_name :
  sheet_name ∉ (pass_through xl sheet_name).*1.
Proof.
  intros Hin. apply list_elem_of_fmap in Hin as ([name df] & -> & Hin).
  apply list_elem_of_fmap in Hin as (name' & [= -> ->] & Hin).
  apply list_elem_of_filter in Hin as [Hne _]. by apply Hne.
Qed.

(** Writes under other names go past a sheet at the head of the workbook. *)
Lemma write_all_past_head sheets first edits writer :
  first ∉ sheets.*1 →
  write_all sheets ((first, edits) :: writer)
  = match write_all sheets writer with
    | inl exc => inl exc
    | inr book => inr ((first, edits) :: book)
    end.
Proof.
  revert writer.
  induction sheets as [|[name df] sheets IH]; intros writer Hfirst; [done|].
  rewrite fmap_cons in Hfirst. apply not_elem_of_cons in Hfirst as [Hne Hrest].
  simpl in Hne. simpl. unfold to_excel.
  destruct (engine_check name df); simpl; [done|].
  destruct (String.eqb_spec first name) as [Heq|_]; [done|].
  by apply IH.
Qed.

(** The workbook written: the edited sheet, then what the pass-through
    writes into an empty workbook. *)
Lemma write_workbook_head edits sheet_name xl book :
  write_workbook edits sheet_name xl = inr book →
  ∃ rest,
    book = (sheet_name, edits) :: rest
    ∧ write_all (pass_through xl sheet_name) [] = inr rest.
Proof.
  rewrite write_workbook_planned. unfold planned_writes. simpl.
  unfold to_excel. destruct (engine_check sheet_name edits); simpl; [done|].
  rewrite write_all_past_head by apply pass_through_names.
  destruct (write_all _ []) as [exc|rest]; [done|].
  intros [= <-]. by exists rest.
Qed.

(** X1 (isolation).  Two edits of the same sheet of the same handle give
    workbooks that differ in their first sheet only: each starts with its
    own edited table under the selected name, which occurs nowhere else, and
    the sheets after it are the same in both. *)
Theorem write_workbook_isolation edits1 edits2 sheet_name xl book1 book2 :
  write_workbook edits1 sheet_name xl = inr book1 →
  write_workbook edits2 sheet_name xl = inr book2 →
  ∃ rest,
    book1 = (sheet_name, edits1) :: rest
    ∧ book2 = (sheet_name, edits2) :: rest
    ∧ sheet_name ∉ book_names rest.
Proof.
  intros (rest & -> & Hrest)%write_workbook_head
         (rest' & -> & Hrest')%write_workbook_head.
  rewrite Hrest in Hrest'. injection Hrest' as <-.
  exists rest. split; [done|]. split; [done|].
  intros Hin. apply (pass_through_names xl sheet_name).
  apply (elem_of_list_to_set (C:=gset string)) in Hin.
  rewrite (write_all_names _ _ _ _ _ Hrest) in Hin.
  apply elem_of_union in Hin as [Hin|Hin]; [by apply elem_of_empty in Hin|].
  by apply elem_of_list_to_set in Hin.
Qed.

(** X2 (what makes the writer fail).  [write_workbook] returns a workbook
    exactly when the engine accepts the edited frame and every frame passed
    through: the recovery covers [xl.parse] only, a sheet the engine refuses
    is never left out. *)
Theorem write_workbook_returns_iff edits sheet_name xl :
  (∃ book, write_workbook edits sheet_name xl = inr book)
  ↔ accepted (planned_writes edits sheet_name xl).
Proof.
  rewrite write_workbook_planned. split.
  - intros [book Hrun]. by eapply write_all_inr_accepted.
  - apply write_all_accepted.
Qed.

Lemma pass_through_ext xl xl' sheet_name names :
  (∀ name, name ≠ sheet_name → parse xl name = parse xl' name) →
  map (fun name => (name, reparse xl name))
    (filter (fun name => name <> sheet_name) names)
  = map (fun name => (name, reparse xl' name))
      (filter (fun name => name <> sheet_name) names).
Proof.
  intros Hsame.
  induction names as [|name names IH]; [done|].
  destruct (decide (name = sheet_name)) as [->|Hne].
  - by rewrite !filter_cons_False by (by intros []).
  - rewrite !filter_cons_True by done. simpl.
    unfold reparse at 1 3. by rewrite Hsame, IH.
Qed.

(** X3 (the selected sheet is not read again).  [write_workbook] never asks
    [xl.parse] for the selected sheet: two handles with the same sheet names
    that agree on every other sheet give the same result, whatever parsing
    the selected sheet would return or raise. *)
Theorem write_workbook_ignores_selected edits sheet_name xl xl' :
  sheet_names xl = sheet_names xl' →
  (∀ name, name ≠ sheet_name → parse xl name = parse xl' name) →
  write_workbook edits sheet_name xl = write_workbook edits sheet_name xl'.
Proof.
  intros Hnames Hsame. rewrite !write_workbook_planned.
  unfold planned_writes. rewrite <- Hnames.
  by rewrite (pass_through_ext xl xl').
Qed.

(** X4 (nothing to pass through).  When the handle has no sheet but the
    selected one (or no sheet at all), the workbook is the edited sheet
    alone, if the engine accepts it. *)
Theorem write_workbook_single_sheet edits sheet_name xl :
  Forall (λ name, name = sheet_name) (sheet_names xl) →
  engine_check sheet_name edits = None →
  write_workbook edits sheet_name xl = inr [(sheet_name, edits)].
Proof.
  intros Hall Hok. rewrite write_workbook_planned. unfold planned_writes.
  assert (filter (λ name, name ≠ sheet_name) (sheet_names xl) = []) as ->.
  { induction Hall as [|name names Hname _ IH]; [done|].
    by rewrite filter_cons_False by (by intros []). }
  simpl. unfold to_excel. by rewrite Hok.
Qed.

End WriterMore.

(** * More about the script *)

Section ScriptMore.

Variable engine_check : string -> DataFrame -> option exn.
Variable overlay : DataFrame -> DataFrame -> DataFrame.
Variable pd_ExcelFile : UploadedFile -> raising ExcelFile.
Variable st_aggrid : option (DataFrame -> DataFrame).
Variable file_uploader : option UploadedFile.
Variable selectbox : list string -> option string.
Variable data_editor : DataFrame -> DataFrame.

Local Abbreviation load_excel := (load_excel pd_ExcelFile).
Local Abbreviation write_workbook := (write_workbook engine_check overlay).
Local Abbreviation main :=
  (main engine_check overlay pd_ExcelFile st_aggrid file_uploader selectbox
     data_editor).

(** The table the grid hands back for the table shown: the AgGrid component
    when it could be imported, the built-in editor otherwise. *)
Local Abbreviation edited df :=
  (match st_aggrid with Some grid => grid df | None => data_editor df end).

(** The paths through [main]: one goal for each way a run can go, with the
    equations that select it in the context. *)
Ltac main_paths :=
  unfold main, try_import_aggrid, load_excel, build_aggrid_table,
    build_data_editor_table;
  destruct st_aggrid as [?grid|] eqn:?;
  destruct file_uploader as [?file|] eqn:?;
  script_step;
  repeat match goal with
    | |- context [pd_ExcelFile ?f] =>
        destruct (pd_ExcelFile f) as [?load_exc|?xl] eqn:?; script_step
    | |- context [match sheet_names ?x with _ => _ end] =>
        destruct (sheet_names x) as [|?first ?others] eqn:?; script_step
    | |- context [selectbox ?l] =>
        destruct (selectbox l) as [?picked|] eqn:?; script_step
    | |- context [String.eqb ?s ""] =>
        destruct (String.eqb_spec s ""); script_step
    | |- context [match parse ?x ?s with _ => _ end] =>
        destruct (parse x s) as [?parse_exc|?table] eqn:?; script_step
    | |- context [write_workbook ?e ?s ?x] =>
        destruct (write_workbook e s x) as [?write_exc|?data_bytes] eqn:?;
        script_step
    end.

(** The hypotheses of a statement and the equations of a path describe the
    same run. *)
Ltac same_run :=
  repeat first
    [ progress simplify_eq
    | match goal with
      | H1 : ?t = _, H2 : ?t = _ |- _ => rewrite H1 in H2
      | H : sheet_names _ = _ |- _ => rewrite H in *
      end ].

(** X5 (no upload).  Without an uploaded file the run is the page header
    and the invitation to select a file, and [main] returns. *)
Theorem main_no_upload :
  file_uploader = None →
  main = (header_calls
            ++ [st_info "Aucun fichier sélectionné. Veuillez sélectionner un fichier `.xlsx`."],
          Return).
Proof. intros Hnone. main_paths; same_run; done. Qed.

(** X6 (no selection).  When the selectbox yields nothing, or the empty
    string, the run stops after the selectbox: [main] returns without a
    message, a grid or a download. *)
Theorem main_no_selection uploaded_file xl :
  file_uploader = Some uploaded_file →
  pd_ExcelFile uploaded_file = inr xl →
  sheet_names xl ≠ [] →
  selectbox (sheet_names xl) = None ∨ selectbox (sheet_names xl) = Some "" →
  main = (header_calls
            ++ [st_sidebar_selectbox "Sélectionner la feuille à éditer"
                  (sheet_names xl)],
          Return).
Proof.
  intros Hup Hxl Hsome Hnone.
  main_paths; same_run; try done; naive_solver.
Qed.

(** X7 (selected sheet unreadable).  When [xl.parse] raises on the selected
    sheet, the run shows an error with the sheet name and the text of the
    exception, and [main] returns: the exception does not leave [main], and
    no metric, grid or download follows. *)
Theorem main_sheet_unreadable uploaded_file xl sheet_name exc :
  file_uploader = Some uploaded_file →
  pd_ExcelFile uploaded_file = inr xl →
  sheet_names xl ≠ [] →
  selectbox (sheet_names xl) = Some sheet_name →
  sheet_name ≠ "" →
  parse xl sheet_name = inl exc →
  main = (header_calls
            ++ [st_sidebar_selectbox "Sélectionner la feuille à éditer"
                  (sheet_names xl);
                st_error ("Impossible de lire la feuille '" +:+ sheet_name
                            +:+ "': " +:+ str exc)],
          Return).
Proof.
  intros Hup Hxl Hsome Hsel Hne Hfail.
  main_paths; same_run; try done; naive_solver.
Qed.

(** X8 (metrics).  The two metrics of a run count the rows and the columns
    of the table parsed from the selected sheet, as it is before the grid
    edits it. *)
Theorem main_metrics col label value :
  st_metric col label value ∈ main.1 →
  ∃ uploaded_file xl sheet_name df,
    file_uploader = Some uploaded_file
    ∧ pd_ExcelFile uploaded_file = inr xl
    ∧ selectbox (sheet_names xl) = Some sheet_name
    ∧ parse xl sheet_name = inr df
    ∧ ((col = 1 ∧ label = "Lignes" ∧ value = length (rows df))
       ∨ (col = 2 ∧ label = "Colonnes" ∧ value = length (columns df))).
Proof.
  main_paths; try among_calls.
  all: rewrite ?elem_of_cons, ?elem_of_nil; intros Hshown;
    eexists _, _, _, _; same_run;
    (split; [done|]); (split; [done|]); (split; [done|]); (split; [done|]);
    naive_solver.
Qed.

(** X9 (one grid per run).  A run uses the AgGrid component exactly when it
    could be imported: then it never calls [st.data_editor], and otherwise
    it never calls AgGrid. *)
Theorem main_one_grid :
  (is_Some st_aggrid → ∀ df num_rows key, st_data_editor df num_rows key ∉ main.1)
  ∧ (st_aggrid = None → ∀ df editable theme, AgGrid_call df editable theme ∉ main.1).
Proof.
  split.
  - intros [grid Hgrid] df num_rows key. main_paths; same_run; among_calls.
  - intros Hnone df editable theme. main_paths; same_run; among_calls.
Qed.

(** X10 (download).  A run shows a download button exactly when it reaches
    the end of [main]: never after a [return] and never when an exception
    leaves the script. *)
Theorem main_download_iff :
  (∃ label data file_name mime,
     st_sidebar_download_button label data file_name mime ∈ main.1)
  ↔ main.2 = Next tt.
Proof.
  split.
  - intros (label & data & file_name & mime & Hin). revert Hin.
    main_paths; try done; among_calls.
  - main_paths; try done; intros _; eexists _, _, _, _;
      rewrite ?elem_of_cons; naive_solver.
Qed.

(** The download of a run is the workbook written from the table the grid
    handed back for the parsed table of the selected sheet. *)
Lemma main_download_written label data file_name mime :
  st_sidebar_download_button label data file_name mime ∈ main.1 →
  ∃ uploaded_file xl sheet_name df,
    file_uploader = Some uploaded_file
    ∧ pd_ExcelFile uploaded_file = inr xl
    ∧ selectbox (sheet_names xl) = Some sheet_name
    ∧ parse xl sheet_name = inr df
    ∧ write_workbook (edited df) sheet_name xl = inr data.
Proof.
  main_paths; try among_calls.
  all: rewrite ?elem_of_cons, ?elem_of_nil; intros Hshown;
    eexists _, _, _, _; same_run;
    (split; [done|]); (split; [done|]); (split; [done|]); (split; [done|]);
    naive_solver.
Qed.

(** X11 (what is downloaded).  The workbook a run offers for download was
    written by [write_workbook] from the table the grid handed back for the
    parsed table of the selected sheet, and holds that table under the
    selected name. *)
Theorem main_download_content label data file_name mime :
  st_sidebar_download_button label data file_name mime ∈ main.1 →
  ∃ uploaded_file xl sheet_name df,
    file_uploader = Some uploaded_file
    ∧ pd_ExcelFile uploaded_file = inr xl
    ∧ selectbox (sheet_names xl) = Some sheet_name
    ∧ parse xl sheet_name = inr df
    ∧ write_workbook (edited df) sheet_name xl = inr data
    ∧ sheet data sheet_name = Some (edited df).
Proof.
  intros (uploaded_file & xl & sheet_name & df & Hup & Hxl & Hsel & Hdf & Hrun)
    %main_download_written.
  exists uploaded_file, xl, sheet_name, df.
  repeat (split; [done|]). by eapply write_workbook_selected.
Qed.



(** X14 (selectbox).  The selectbox of a run offers the sheet names of the
    uploaded workbook, in the order of the file, and there is at least
    one. *)
Theorem main_selectbox_options label options :
  st_sidebar_selectbox label options ∈ main.1 →
  options ≠ []
  ∧ ∃ uploaded_file xl,
      file_uploader = Some uploaded_file
      ∧ pd_ExcelFile uploaded_file = inr xl
      ∧ options = sheet_names xl.
Proof.
  main_paths; try among_calls.
  all: rewrite ?elem_of_cons, ?elem_of_nil; intros Hshown;
    (split; [naive_solver|]); eexists _, _; same_run;
    (split; [done|]); (split; [done|]); naive_solver.
Qed.

(** X15 (page header).  Every run starts with the same calls: page
    configuration, title, introduction, sidebar title and steps, and the
    file uploader restricted to .xlsx, whatever happens afterwards. *)
Theorem main_header :
  ∃ rest, main.1 = header_calls ++ rest.
Proof. main_paths; by eexists. Qed.

End ScriptMore.

(** * More runs on the example workbook *)

(** X1: the edit of the specification's scenario and no edit at all. *)
Lemma isolation_example :
  ∃ rest,
    [("Data", Data_edited); ("Notes", Notes); ("Chart", empty_frame)]
    = ("Data", Data_edited) :: rest
    ∧ [("Data", Data); ("Notes", Notes); ("Chart", empty_frame)]
      = ("Data", Data) :: rest
    ∧ "Data" ∉ book_names rest.
Proof.
  apply (write_workbook_isolation xlsx_limits new_cells Data_edited Data "Data"
           damaged_xl).
  - reflexivity.
  - reflexivity.
Defined.

(** X3: a handle on which "Data" itself cannot be read any more. *)
Lemma ignores_selected_example :
  write_workbook xlsx_limits new_cells Data_edited "Data" damaged_xl
  = write_workbook xlsx_limits new_cells Data_edited "Data"
      {| sheet_names := ["Notes"; "Data"; "Chart"];
         parse := fun name =>
           if String.eqb name "Notes" then inr Notes
           else inl (Exception "unreadable sheet") |}.
Proof.
  apply (write_workbook_ignores_selected xlsx_limits new_cells).
  - reflexivity.
  - intros name Hname. simpl.
    destruct (String.eqb_spec name "Data") as [->|_]; [done|reflexivity].
Defined.

(** X4: a workbook with the sheet "Data" alone. *)
Lemma single_sheet_example :
  write_workbook xlsx_limits new_cells Data_edited "Data"
    {| sheet_names := ["Data"]; parse := parse example_xl |}
  = inr [("Data", Data_edited)].
Proof.
  apply (write_workbook_single_sheet xlsx_limits new_cells).
  - repeat constructor.
  - reflexivity.
Defined.

(** X5: a run before any upload. *)
Lemma no_upload_example :
  main xlsx_limits new_cells example_parser None None head two_more_rows
  = (header_calls
       ++ [st_info "Aucun fichier sélectionné. Veuillez sélectionner un fichier `.xlsx`."],
     Return).
Proof.
  apply (main_no_upload xlsx_limits new_cells example_parser None None head
           two_more_rows).
  reflexivity.
Defined.

(** X6: the selectbox yields nothing. *)
Lemma no_selection_example :
  main xlsx_limits new_cells example_parser None (Some example_upload)
    (λ _, None) two_more_rows
  = (header_calls
       ++ [st_sidebar_selectbox "Sélectionner la feuille à éditer"
             (sheet_names example_xl)],
     Return).
Proof.
  apply (main_no_selection xlsx_limits new_cells example_parser None
           (Some example_upload) (λ _, None) two_more_rows example_upload
           example_xl).
  - reflexivity.
  - reflexivity.
  - discriminate.
  - left. reflexivity.
Defined.

(** X7: the user picks "Chart", which cannot be read. *)
Lemma sheet_unreadable_example :
  main xlsx_limits new_cells (λ _, inr damaged_xl) None (Some example_upload)
    (λ _, Some "Chart") two_more_rows
  = (header_calls
       ++ [st_sidebar_selectbox "Sélectionner la feuille à éditer"
             (sheet_names damaged_xl);
           st_error ("Impossible de lire la feuille '" +:+ "Chart"
                       +:+ "': " +:+ str (Exception "unreadable sheet"))],
     Return).
Proof.
  apply (main_sheet_unreadable xlsx_limits new_cells (λ _, inr damaged_xl) None
           (Some example_upload) (λ _, Some "Chart") two_more_rows
           example_upload damaged_xl "Chart" (Exception "unreadable sheet")).
  - reflexivity.
  - reflexivity.
  - discriminate.
  - reflexivity.
  - discriminate.
  - reflexivity.
Defined.

(** X8: the row metric of the example run is 2, the rows of "Data" before
    the two rows are added. *)
Lemma metrics_example :
  ∃ uploaded_file xl sheet_name df,
    Some example_upload = Some uploaded_file
    ∧ example_parser uploaded_file = inr xl
    ∧ head (sheet_names xl) = Some sheet_name
    ∧ parse xl sheet_name = inr df
    ∧ ((1 = 1 ∧ "Lignes" = "Lignes" ∧ 2 = length (rows df))
       ∨ (1 = 2 ∧ "Lignes" = "Colonnes" ∧ 2 = length (columns df))).
Proof.
  apply (main_metrics xlsx_limits new_cells example_parser None
           (Some example_upload) head two_more_rows 1 "Lignes" 2).
  vm_compute. repeat first [by left | right].
Defined.

(** X9: without the AgGrid package the example run uses the built-in
    editor. *)
Lemma one_grid_example :
  AgGrid_call Data true "light"
  ∉ (main xlsx_limits new_cells example_parser None (Some example_upload) head
       two_more_rows).1.
Proof.
  apply (main_one_grid xlsx_limits new_cells example_parser None
           (Some example_upload) head two_more_rows).
  reflexivity.
Defined.

(** The download of the example run: "Data" with the two rows added, then
    "Notes". *)
Example example_run_download :
  last (main xlsx_limits new_cells example_parser None (Some example_upload)
          head two_more_rows).1
  = Some (st_sidebar_download_button "💾 Télécharger le classeur modifié"
            [("Data", two_more_rows Data); ("Notes", Notes)]
            "modifié_ventes.xlsx" xlsx_mime).
Proof. reflexivity. Qed.

(** X11 on the example run. *)
Lemma download_content_example :
  ∃ uploaded_file xl sheet_name df,
    Some example_upload = Some uploaded_file
    ∧ example_parser uploaded_file = inr xl
    ∧ head (sheet_names xl) = Some sheet_name
    ∧ parse xl sheet_name = inr df
    ∧ write_workbook xlsx_limits new_cells (two_more_rows df) sheet_name xl
      = inr [("Data", two_more_rows Data); ("Notes", Notes)]
    ∧ sheet [("Data", two_more_rows Data); ("Notes", Notes)] sheet_name
      = Some (two_more_rows df).
Proof.
  apply (main_download_content xlsx_limits new_cells example_parser None
           (Some example_upload) head two_more_rows
           "💾 Télécharger le classeur modifié" _ "modifié_ventes.xlsx"
           xlsx_mime).
  vm_compute. repeat first [by left | right].
Defined.



(** X14 on the example run. *)
Lemma selectbox_options_example :
  ["Data"; "Notes"] ≠ []
  ∧ ∃ uploaded_file xl,
      Some example_upload = Some uploaded_file
      ∧ example_parser uploaded_file = inr xl
      ∧ ["Data"; "Notes"] = sheet_names xl.
Proof.
  apply (main_selectbox_options xlsx_limits new_cells example_parser None
           (Some example_upload) head two_more_rows
           "Sélectionner la feuille à éditer").
  vm_compute. repeat first [by left | right].
Defined.
